(** * examples/hooks/llm-feedback-demo.py: the LLM feedback demo hook

    The script reads one JSON document from standard input, branches on
    its [hook_event_name], and prints one JSON object.  This file embeds
    the script together with the pieces of the Python runtime it calls
    ([dict.get], [str], [repr], [str.lower], [in], item assignment,
    [json.dumps]) and proves the properties of the specification.

    Scope of the runtime model.  A Python [str] is a [string] with one
    [ascii] per code point, so the model covers text whose code points
    are below 256; [lower], [str_repr] and [json_str] follow CPython on
    that range.  The shortest-digits [repr] of a [float] is a variable
    of the development.  Limits of the interpreter (recursion depth,
    memory) are not modelled. *)

From Stdlib Require Import ZArith String Ascii List Bool Lia.
From Stdlib Require Import Numbers.DecimalString Floats.PrimFloat.
From ExtLib Require Import Structures.Monad Structures.MonadState Structures.MonadExc.
From ExtLib Require Import Data.Monads.StateMonad Data.Monads.EitherMonad.
Import ListNotations.
Import MonadNotation.

Local Open Scope string_scope.
Local Open Scope bool_scope.
Local Open Scope monad_scope.

#[local] Existing Instance Monad_stateT.

(** ** Text *)

Module Text.

Definition dquote : ascii := "034"%char.
Definition squote : ascii := "039"%char.
Definition backslash : ascii := "092"%char.
Definition tab : ascii := "009"%char.
Definition newline : ascii := "010"%char.
Definition creturn : ascii := "013"%char.
Definition backspace : ascii := "008"%char.
Definition formfeed : ascii := "012"%char.

Definition char (c : ascii) : string := String c EmptyString.

(** [needle in hay] on two [str]s: [needle] occurs as a contiguous
    run of [hay]. *)
Fixpoint str_in (needle hay : string) : bool :=
  prefix needle hay ||
  match hay with
  | EmptyString => false
  | String _ rest => str_in needle rest
  end.

(** [str.lower()] on code points below 256: [A-Z] and the Latin-1
    capitals U+00C0..U+00DE (but not the multiplication sign U+00D7)
    move up by 32, everything else stays. *)
Definition lower_char (c : ascii) : ascii :=
  let n := N_of_ascii c in
  if ((65 <=? n)%N && (n <=? 90)%N) ||
     ((192 <=? n)%N && (n <=? 222)%N && negb (n =? 215)%N)
  then ascii_of_N (n + 32) else c.

Fixpoint lower (s : string) : string :=
  match s with
  | EmptyString => EmptyString
  | String c rest => String (lower_char c) (lower rest)
  end.

Definition hex_digit (n : N) : ascii :=
  match String.get (N.to_nat n) "0123456789abcdef" with
  | Some c => c
  | None => "0"%char
  end.

(** Two lower-case hexadecimal digits of a code point below 256. *)
Definition hex2 (c : ascii) : string :=
  let n := N_of_ascii c in
  String (hex_digit (n / 16)%N) (String (hex_digit (n mod 16)%N) EmptyString).

(** [str.isprintable()] for one code point at or above U+0080: the C1
    controls, the no-break space and the soft hyphen are not. *)
Definition isprintable_high (c : ascii) : bool :=
  let n := N_of_ascii c in
  negb ((n <=? 159)%N || (n =? 160)%N || (n =? 173)%N).

(** [repr] of a [str]: single quotes unless the text has a single
    quote and no double quote. *)
Definition repr_quote (s : string) : ascii :=
  if str_in (char squote) s && negb (str_in (char dquote) s)
  then dquote else squote.

Definition repr_char (quote c : ascii) : string :=
  let n := N_of_ascii c in
  if Ascii.eqb c quote || Ascii.eqb c backslash then String backslash (char c)
  else if Ascii.eqb c tab then String backslash "t"
  else if Ascii.eqb c newline then String backslash "n"
  else if Ascii.eqb c creturn then String backslash "r"
  else if (n <? 32)%N || (n =? 127)%N then String backslash ("x" ++ hex2 c)
  else if (n <? 127)%N then char c
  else if isprintable_high c then char c
  else String backslash ("x" ++ hex2 c).

Fixpoint repr_body (quote : ascii) (s : string) : string :=
  match s with
  | EmptyString => EmptyString
  | String c rest => repr_char quote c ++ repr_body quote rest
  end.

Definition str_repr (s : string) : string :=
  let quote := repr_quote s in
  String quote (repr_body quote s ++ char quote).

(** [json.dumps] of a [str] with the default [ensure_ascii=True]. *)
Definition json_char (c : ascii) : string :=
  let n := N_of_ascii c in
  if Ascii.eqb c dquote || Ascii.eqb c backslash then String backslash (char c)
  else if Ascii.eqb c newline then String backslash "n"
  else if Ascii.eqb c creturn then String backslash "r"
  else if Ascii.eqb c tab then String backslash "t"
  else if Ascii.eqb c backspace then String backslash "b"
  else if Ascii.eqb c formfeed then String backslash "f"
  else if (32 <=? n)%N && (n <=? 126)%N then char c
  else String backslash ("u00" ++ hex2 c).

Fixpoint json_body (s : string) : string :=
  match s with
  | EmptyString => EmptyString
  | String c rest => json_char c ++ json_body rest
  end.

Definition json_str (s : string) : string :=
  String dquote (json_body s ++ char dquote).

(** [repr] of an [int]. *)
Definition int_repr (z : Z) : string := NilZero.string_of_int (Z.to_int z).

End Text.

Import Text.

(** ** Python values *)

Set Warnings "-register-all".

(** What [json.load] can return: [None], [bool], [int], [float], [str],
    [list], and [dict] with [str] keys.  A [dict] keeps its items in
    insertion order, one item per key. *)
Inductive pyval : Type :=
  | PNone
  | PBool (b : bool)
  | PInt (z : Z)
  | PFloat (f : float)
  | PStr (s : string)
  | PList (items : list pyval)
  | PDict (items : list (string * pyval)).

Definition pydict : Type := list (string * pyval).

(** The exceptions the script can end with. *)
Inductive pyexn : Type :=
  | JSONDecodeError
  | AttributeError (type_name attr : string)
  | TypeError (type_name : string).

Definition type_name (v : pyval) : string :=
  match v with
  | PNone => "NoneType"
  | PBool _ => "bool"
  | PInt _ => "int"
  | PFloat _ => "float"
  | PStr _ => "str"
  | PList _ => "list"
  | PDict _ => "dict"
  end.

Module Dict.

(** [key in d], and [d[key]] when it is. *)
Fixpoint lookup (key : string) (d : pydict) : option pyval :=
  match d with
  | [] => None
  | (k, v) :: rest => if String.eqb k key then Some v else lookup key rest
  end.

(** [d.get(key, default)]. *)
Definition get (key : string) (default : pyval) (d : pydict) : pyval :=
  match lookup key d with
  | Some v => v
  | None => default
  end.

(** [d[key] = value]: an existing key keeps its place and takes the
    new value, a new key goes to the end. *)
Fixpoint set (key : string) (value : pyval) (d : pydict) : pydict :=
  match d with
  | [] => [(key, value)]
  | (k, v) :: rest =>
      if String.eqb k key then (k, value) :: rest
      else (k, v) :: set key value rest
  end.

Definition keys (d : pydict) : list string := map fst d.

Definition has_key (key : string) (d : pydict) : bool :=
  match lookup key d with
  | Some _ => true
  | None => false
  end.

End Dict.

Section Runtime.

(** [float.__repr__]: the shortest decimal text that reads back as the
    same double. *)
Variable float_repr : float -> string.

(** [repr(v)]. *)
Fixpoint py_repr (v : pyval) : string :=
  match v with
  | PNone => "None"
  | PBool b => if b then "True" else "False"
  | PInt z => int_repr z
  | PFloat f => float_repr f
  | PStr s => str_repr s
  | PList items =>
      "[" ++
      (fix elems (l : list pyval) : string :=
         match l with
         | [] => ""
         | x :: rest =>
             match rest with
             | [] => py_repr x
             | _ :: _ => py_repr x ++ ", " ++ elems rest
             end
         end) items ++ "]"
  | PDict items =>
      "{" ++
      (fix elems (l : pydict) : string :=
         match l with
         | [] => ""
         | (k, x) :: rest =>
             match rest with
             | [] => str_repr k ++ ": " ++ py_repr x
             | _ :: _ => str_repr k ++ ": " ++ py_repr x ++ ", " ++ elems rest
             end
         end) items ++ "}"
  end.

(** [str(v)], which is also what an f-string field [{v}] inserts: a
    [str] is itself, any other value is its [repr]. *)
Definition py_str (v : pyval) : string :=
  match v with
  | PStr s => s
  | _ => py_repr v
  end.

(** [json.dumps] of a [float]. *)
Definition json_float (f : float) : string :=
  if is_nan f then "NaN"
  else if is_infinity f then (if PrimFloat.ltb f 0 then "-Infinity" else "Infinity")
  else float_repr f.

(** [json.dumps(v)] with the default separators. *)
Fixpoint json_dumps (v : pyval) : string :=
  match v with
  | PNone => "null"
  | PBool b => if b then "true" else "false"
  | PInt z => int_repr z
  | PFloat f => json_float f
  | PStr s => json_str s
  | PList items =>
      "[" ++
      (fix elems (l : list pyval) : string :=
         match l with
         | [] => ""
         | x :: rest =>
             match rest with
             | [] => json_dumps x
             | _ :: _ => json_dumps x ++ ", " ++ elems rest
             end
         end) items ++ "]"
  | PDict items =>
      "{" ++
      (fix elems (l : pydict) : string :=
         match l with
         | [] => ""
         | (k, x) :: rest =>
             match rest with
             | [] => json_str k ++ ": " ++ json_dumps x
             | _ :: _ => json_str k ++ ": " ++ json_dumps x ++ ", " ++ elems rest
             end
         end) items ++ "}"
  end.

End Runtime.

(** [obj.get(key, default)]: only a [dict] has the method. *)
Definition py_get (obj : pyval) (key : string) (default : pyval) : pyexn + pyval :=
  match obj with
  | PDict d => inr (Dict.get key default d)
  | _ => inl (AttributeError (type_name obj) "get")
  end.

(** [obj.lower()]: only a [str] has the method. *)
Definition py_lower (obj : pyval) : pyexn + string :=
  match obj with
  | PStr s => inr (lower s)
  | _ => inl (AttributeError (type_name obj) "lower")
  end.

(** [obj == 'literal']: a value that is not a [str] is never equal. *)
Definition py_eq_str (obj : pyval) (literal : string) : bool :=
  match obj with
  | PStr s => String.eqb s literal
  | _ => false
  end.

(** ['literal' in obj]: a run of a [str], an element of a [list], a key
    of a [dict]; the other values are not containers. *)
Definition py_in (literal : string) (obj : pyval) : pyexn + bool :=
  match obj with
  | PStr s => inr (str_in literal s)
  | PList items => inr (existsb (fun x => py_eq_str x literal) items)
  | PDict d => inr (Dict.has_key literal d)
  | _ => inl (TypeError (type_name obj))
  end.

(** ** The script *)

(** The process the host starts: what [json.load(sys.stdin)] finds
    ([None] when the text on standard input is not JSON), and the
    ambient state any process could consult. *)
Record process : Type := {
  stdin_json : option pyval;
  argv : list string;
  environ : list (string * string);
  cwd_files : list (string * string);
  clock : Z;
  random_seed : Z
  }.

Definition json_load (p : process) : pyexn + pyval :=
  match stdin_json p with
  | Some doc => inr doc
  | None => inl JSONDecodeError
  end.

(** Statements of [main] run over the [output] dict and may raise. *)
Definition hook : Type -> Type := stateT pydict (sum pyexn).

Definition eval {A : Type} (r : pyexn + A) : hook A :=
  mkStateT (fun output => match r with
                          | inl e => inl e
                          | inr a => inr (a, output)
                          end).

(** [output[key] = value]. *)
Definition setitem (key : string) (value : pyval) : hook unit :=
  output <- get ;;
  put (Dict.set key value output).

Definition sanitized_result : pyval :=
  PDict [("result", PStr "Output sanitized for security")].

Section Script.

Variable float_repr : float -> string.

(** The f-string of line 20. *)
Definition error_feedback (tool_name : pyval) : string :=
  "The " ++ py_str float_repr tool_name ++
  " tool encountered an error. Consider checking inputs or using an alternative approach.".

(** Lines 10 to 40 of [main]. *)
Definition main_body (input_data : pyval) : hook unit :=
  hook_event <- eval (py_get input_data "hook_event_name" (PStr "")) ;;
  put [] ;;
  if py_eq_str hook_event "PostToolUse" then
    tool_name <- eval (py_get input_data "tool_name" (PStr "")) ;;
    tool_response <- eval (py_get input_data "tool_response" (PDict [])) ;;
    (if str_in "error" (lower (py_str float_repr tool_response)) then
       setitem "feedback" (PStr (error_feedback tool_name)) ;;
       setitem "context" (PStr "Tool execution failed")
     else ret tt) ;;
    (if str_in "password" (lower (py_str float_repr tool_response)) then
       setitem "modifyOutput" (PStr (json_dumps float_repr sanitized_result)) ;;
       setitem "suppressOutput" (PBool true) ;;
       setitem "feedback" (PStr "Sensitive data was detected and removed from output")
     else ret tt)
  else if py_eq_str hook_event "UserPromptSubmit" then
    prompt <- eval (py_get input_data "prompt" (PStr "")) ;;
    lowered <- eval (py_lower prompt) ;;
    asks <- (if str_in "help" lowered then ret true
             else eval (py_in "?" prompt)) ;;
    if (asks : bool) then
      setitem "context" (PStr "User is asking for help, provide detailed explanations") ;;
      setitem "systemPrompt" (PStr "Be extra helpful and provide examples")
    else ret tt
  else ret tt.

(** [str(tool_response).lower()] of lines 19 and 24, for the items [d]
    of the input document. *)
Definition response_rendering (d : pydict) : string :=
  lower (py_str float_repr (Dict.get "tool_response" (PDict []) d)).

(** The [output] dict when line 42 is reached. *)
Definition hook_output (input_data : pyval) : pyexn + pydict :=
  execStateT (main_body input_data) [].

(** The line [print(json.dumps(output))] writes. *)
Definition output_line (output : pydict) : string :=
  json_dumps float_repr (PDict output) ++ char newline.

(** [main]: the line written to standard output, or the exception the
    process ends with. *)
Definition main (p : process) : pyexn + string :=
  input_data <- json_load p ;;
  output <- hook_output input_data ;;
  ret (output_line output).

(** The [output] dict of a whole run. *)
Definition output_of (p : process) : pyexn + pydict :=
  input_data <- json_load p ;;
  hook_output input_data.

(** The run of [p] reaches line 42 with [output] and prints it. *)
Definition emits (p : process) (output : pydict) : Prop :=
  output_of p = inr output /\ main p = inr (output_line output).

End Script.

Arguments hook_output : simpl never.

(** ** Vocabulary of the specification *)

(** The five output keys the host recognises. *)
Definition output_keys : list string :=
  ["feedback"; "context"; "modifyOutput"; "suppressOutput"; "systemPrompt"].

Definition sanitize_message : string :=
  "Sensitive data was detected and removed from output".

(** A JSON string literal of plain printable text. *)
Definition quoted (s : string) : string := String dquote (s ++ char dquote).

(** A double quote inside a JSON string literal. *)
Definition escaped_quote : string := String backslash (char dquote).

(** The JSON encoding of [{"result": "Output sanitized for security"}]. *)
Definition sanitized_json : string :=
  "{" ++ quoted "result" ++ ": " ++ quoted "Output sanitized for security" ++ "}".

Definition out_error (tool_name : string) : pydict :=
  [("feedback", PStr ("The " ++ tool_name ++
      " tool encountered an error. Consider checking inputs or using an alternative approach."));
   ("context", PStr "Tool execution failed")].

Definition out_sanitized : pydict :=
  [("modifyOutput", PStr sanitized_json);
   ("suppressOutput", PBool true);
   ("feedback", PStr sanitize_message)].

Definition out_both : pydict :=
  [("feedback", PStr sanitize_message);
   ("context", PStr "Tool execution failed");
   ("modifyOutput", PStr sanitized_json);
   ("suppressOutput", PBool true)].

Definition out_help : pydict :=
  [("context", PStr "User is asking for help, provide detailed explanations");
   ("systemPrompt", PStr "Be extra helpful and provide examples")].

(** The process whose standard input holds the JSON document [doc]. *)
Definition process_of (doc : pyval) : process :=
  {| stdin_json := Some doc; argv := []; environ := []; cwd_files := [];
     clock := 0; random_seed := 0 |}.

(** The five dicts line 42 can see. *)
Inductive output_shape : pydict -> Prop :=
  | shape_empty : output_shape []
  | shape_error tool : output_shape (out_error tool)
  | shape_sanitized : output_shape out_sanitized
  | shape_both : output_shape out_both
  | shape_help : output_shape out_help.

(** ** Sample documents *)

(** The documents below hold no float, so any [float.__repr__] serves. *)
Definition plain_float_repr (f : float) : string := "0.0".

Definition doc_both : pydict :=
  [("hook_event_name", PStr "PostToolUse");
   ("tool_name", PStr "Bash");
   ("tool_response", PDict [("stderr", PStr "Error: bad PASSWORD")])].

Definition doc_read_error : pydict :=
  [("hook_event_name", PStr "PostToolUse");
   ("tool_name", PStr "Read");
   ("tool_response", PStr "Error: file not found")].

Definition doc_password : pydict :=
  [("hook_event_name", PStr "PostToolUse");
   ("tool_name", PStr "Read");
   ("tool_response", PStr "login ok, token=password123")].

Definition doc_stop : pydict := [("hook_event_name", PStr "Stop")].

Definition doc_help : pydict :=
  [("hook_event_name", PStr "UserPromptSubmit");
   ("prompt", PStr "can you help me?")].

Definition doc_plain : pydict :=
  [("hook_event_name", PStr "UserPromptSubmit");
   ("prompt", PStr "do the thing")].

Definition doc_nameless : pydict :=
  [("hook_event_name", PStr "PostToolUse");
   ("tool_response", PStr "Error: file not found")].

Definition doc_post_only : pydict := [("hook_event_name", PStr "PostToolUse")].

Definition doc_prompt_only : pydict := [("hook_event_name", PStr "UserPromptSubmit")].

(** ** Vocabulary of the further properties *)

(** [sep.join(parts)]. *)
Fixpoint join (sep : string) (parts : list string) : string :=
  match parts with
  | [] => ""
  | x :: rest =>
      match rest with
      | [] => x
      | _ :: _ => x ++ sep ++ join sep rest
      end
  end.

(** Every code point of [s] passes [ok]. *)
Fixpoint all_chars (ok : ascii -> bool) (s : string) : bool :=
  match s with
  | EmptyString => true
  | String c rest => ok c && all_chars ok rest
  end.

(** [a-z]. *)
Definition is_ascii_lower (c : ascii) : bool :=
  let n := N_of_ascii c in (97 <=? n)%N && (n <=? 122)%N.

(** The text [w] occurs inside [v]: in a [str], in an element of a
    [list], in a key or a value of a [dict], at any depth. *)
Fixpoint mentions (w : string) (v : pyval) : bool :=
  match v with
  | PStr s => str_in w s
  | PList items => existsb (mentions w) items
  | PDict items => existsb (fun '(k, x) => str_in w k || mentions w x) items
  | _ => false
  end.

(** The four keys the script reads. *)
Definition input_keys : list string :=
  ["hook_event_name"; "tool_name"; "tool_response"; "prompt"].

(** A password under a capitalised key, two levels down. *)
Definition doc_nested_password : pydict :=
  [("hook_event_name", PStr "PostToolUse");
   ("tool_name", PStr "Bash");
   ("tool_response",
    PDict [("exit", PInt 0);
           ("rows", PList [PInt 3; PDict [("Password", PStr "hunter2")]])])].

(** A successful response that carries an empty [ERROR] field. *)
Definition doc_error_key : pydict :=
  [("hook_event_name", PStr "PostToolUse");
   ("tool_name", PList [PStr "Read"; PInt 2]);
   ("tool_response", PDict [("ok", PBool true); ("ERROR", PNone)])].

Definition doc_numeric_prompt : pydict :=
  [("hook_event_name", PStr "UserPromptSubmit"); ("prompt", PInt 7)].

Definition doc_shouted_help : pydict :=
  [("hook_event_name", PStr "UserPromptSubmit"); ("prompt", PStr "HELP me")].

Definition doc_numeric_event : pydict :=
  [("hook_event_name", PInt 1); ("prompt", PInt 7)].

(** ** Substring test *)

Lemma prefix_append (n rest : string) : prefix n (n ++ rest) = true.
Proof.
  induction n as [|c n IH]; simpl.
  - destruct rest; reflexivity.
  - destruct (ascii_dec c c) as [_|ne]; [exact IH | contradiction].
Qed.

Lemma prefix_split (n h : string) :
  prefix n h = true -> exists rest, h = n ++ rest.
Proof.
  revert h. induction n as [|c n IH]; intros h H.
  - exists h. reflexivity.
  - destruct h as [|c' h]; simpl in H; [discriminate|].
    destruct (ascii_dec c c') as [->|ne]; [|discriminate].
    destruct (IH h H) as [rest ->]. exists rest. reflexivity.
Qed.

(** [str_in] is the substring relation. *)
Lemma str_in_spec (n h : string) :
  str_in n h = true <-> exists before after, h = before ++ n ++ after.
Proof.
  split.
  - induction h as [|c h IH]; cbn [str_in]; intros H.
    + rewrite orb_false_r in H. destruct (prefix_split _ _ H) as [rest E].
      exists "", rest. exact E.
    + apply orb_true_iff in H. destruct H as [H|H].
      * destruct (prefix_split _ _ H) as [rest E]. exists "", rest. exact E.
      * destruct (IH H) as (b & a & ->). exists (String c b), a. reflexivity.
  - intros (b & a & ->). induction b as [|c b IH].
    + change ("" ++ n ++ a) with (n ++ a).
      destruct (n ++ a) eqn:E; cbn [str_in]; rewrite <- E, prefix_append; reflexivity.
    + change (String c b ++ n ++ a) with (String c (b ++ n ++ a)).
      cbn [str_in]. rewrite IH. apply orb_true_r.
Qed.

(** ** The script, branch by branch *)

Section Branches.

Variable float_repr : float -> string.

Lemma sanitized_json_dumps :
  json_dumps float_repr sanitized_result = sanitized_json.
Proof. reflexivity. Qed.

(** A document that is not a [dict] has no [get]. *)
Lemma hook_output_not_dict (v : pyval) :
  (forall d, v <> PDict d) ->
  hook_output float_repr v = inl (AttributeError (type_name v) "get").
Proof.
  intros H. destruct v; try reflexivity. exfalso. exact (H _ eq_refl).
Qed.

Lemma hook_output_post_tool_use (d : pydict) :
  py_eq_str (Dict.get "hook_event_name" (PStr "") d) "PostToolUse" = true ->
  hook_output float_repr (PDict d) =
  inr (let rendering :=
         lower (py_str float_repr (Dict.get "tool_response" (PDict []) d)) in
       let tool := py_str float_repr (Dict.get "tool_name" (PStr "") d) in
       match str_in "error" rendering, str_in "password" rendering with
       | true, true => out_both
       | true, false => out_error tool
       | false, true => out_sanitized
       | false, false => []
       end).
Proof.
  intros H. unfold hook_output, execStateT, main_body. cbn.
  rewrite H. cbn.
  destruct (str_in "error" _), (str_in "password" _); reflexivity.
Qed.

Lemma hook_output_user_prompt (d : pydict) (text : string) :
  py_eq_str (Dict.get "hook_event_name" (PStr "") d) "PostToolUse" = false ->
  py_eq_str (Dict.get "hook_event_name" (PStr "") d) "UserPromptSubmit" = true ->
  Dict.get "prompt" (PStr "") d = PStr text ->
  hook_output float_repr (PDict d) =
  inr (if str_in "help" (lower text) || str_in "?" text then out_help else []).
Proof.
  intros H1 H2 H3. unfold hook_output, execStateT, main_body. cbn.
  rewrite H1, H2. cbn. rewrite H3. cbn.
  destruct (str_in "help" _); cbn; [reflexivity|].
  destruct (str_in "?" _); reflexivity.
Qed.

(** A prompt that is not a [str] has no [lower]: nothing is printed. *)
Lemma hook_output_user_prompt_raises (d : pydict) :
  py_eq_str (Dict.get "hook_event_name" (PStr "") d) "PostToolUse" = false ->
  py_eq_str (Dict.get "hook_event_name" (PStr "") d) "UserPromptSubmit" = true ->
  (forall text, Dict.get "prompt" (PStr "") d <> PStr text) ->
  hook_output float_repr (PDict d) =
  inl (AttributeError (type_name (Dict.get "prompt" (PStr "") d)) "lower").
Proof.
  intros H1 H2 H3. unfold hook_output, execStateT, main_body. cbn.
  rewrite H1, H2. cbn.
  destruct (Dict.get "prompt" (PStr "") d) eqn:E; try reflexivity.
  exfalso. exact (H3 _ eq_refl).
Qed.

Lemma hook_output_other_event (d : pydict) :
  py_eq_str (Dict.get "hook_event_name" (PStr "") d) "PostToolUse" = false ->
  py_eq_str (Dict.get "hook_event_name" (PStr "") d) "UserPromptSubmit" = false ->
  hook_output float_repr (PDict d) = inr [].
Proof.
  intros H1 H2. unfold hook_output, execStateT, main_body. cbn.
  rewrite H1, H2. reflexivity.
Qed.

Lemma hook_output_shape (v : pyval) (output : pydict) :
  hook_output float_repr v = inr output -> output_shape output.
Proof.
  intros H. destruct v as [| | | | |l|d];
    try (rewrite hook_output_not_dict in H by discriminate; discriminate).
  destruct (py_eq_str (Dict.get "hook_event_name" (PStr "") d) "PostToolUse") eqn:E1.
  - rewrite (hook_output_post_tool_use d E1) in H. cbv zeta in H.
    destruct (str_in "error" _), (str_in "password" _);
      injection H as <-; constructor.
  - destruct (py_eq_str (Dict.get "hook_event_name" (PStr "") d) "UserPromptSubmit") eqn:E2.
    + destruct (Dict.get "prompt" (PStr "") d) as [| | | |text| |] eqn:E3;
        try (rewrite (hook_output_user_prompt_raises d E1 E2) in H
               by (rewrite E3; discriminate); discriminate).
      rewrite (hook_output_user_prompt d text E1 E2 E3) in H.
      destruct (_ || _); injection H as <-; constructor.
    + rewrite (hook_output_other_event d E1 E2) in H.
      injection H as <-. constructor.
Qed.

Lemma emits_intro (p : process) (doc : pyval) (output : pydict) :
  stdin_json p = Some doc ->
  hook_output float_repr doc = inr output ->
  emits float_repr p output.
Proof.
  intros Hin Hout. unfold emits, output_of, main, json_load.
  rewrite Hin. cbn. rewrite Hout. split; reflexivity.
Qed.

Lemma emits_inv (p : process) (output : pydict) :
  emits float_repr p output ->
  exists doc, stdin_json p = Some doc /\ hook_output float_repr doc = inr output.
Proof.
  intros [H _]. unfold output_of, json_load in H.
  destruct (stdin_json p) as [doc|]; cbn in H; [|discriminate].
  exists doc. split; [reflexivity | exact H].
Qed.

Lemma main_inv (p : process) (line : string) :
  main float_repr p = inr line ->
  exists output, emits float_repr p output /\ line = output_line float_repr output.
Proof.
  intros H. unfold main, json_load in H.
  destruct (stdin_json p) as [doc|] eqn:Hin; cbn in H; [|discriminate].
  destruct (hook_output float_repr doc) as [e|output] eqn:Hout; cbn in H; [discriminate|].
  injection H as <-. exists output. split; [|reflexivity].
  exact (emits_intro p doc output Hin Hout).
Qed.

Lemma get_of_lookup (key : string) (default v : pyval) (d : pydict) :
  Dict.lookup key d = Some v -> Dict.get key default d = v.
Proof. intros H. unfold Dict.get. rewrite H. reflexivity. Qed.

Lemma get_of_absent (key : string) (default : pyval) (d : pydict) :
  Dict.lookup key d = None -> Dict.get key default d = default.
Proof. intros H. unfold Dict.get. rewrite H. reflexivity. Qed.

Lemma lookup_set_same (key : string) (v : pyval) (d : pydict) :
  Dict.lookup key (Dict.set key v d) = Some v.
Proof.
  induction d as [|[k x] d IH]; cbn.
  - rewrite String.eqb_refl. reflexivity.
  - destruct (String.eqb k key) eqn:E; cbn; rewrite E; [reflexivity | exact IH].
Qed.

Lemma lookup_set_other (key key' : string) (v : pyval) (d : pydict) :
  key <> key' ->
  Dict.lookup key' (Dict.set key v d) = Dict.lookup key' d.
Proof.
  intros Hne. induction d as [|[k x] d IH]; cbn.
  - apply String.eqb_neq in Hne. rewrite Hne. reflexivity.
  - destruct (String.eqb k key) eqn:E; cbn.
    + apply String.eqb_eq in E. subst k.
      apply String.eqb_neq in Hne. rewrite Hne. reflexivity.
    + rewrite IH. reflexivity.
Qed.

(** Writing the default under an absent key changes no [get]. *)
Lemma get_set_default (key key' : string) (default default' : pyval) (d : pydict) :
  Dict.lookup key d = None ->
  (key = key' -> default = default') ->
  Dict.get key' default' (Dict.set key default d) = Dict.get key' default' d.
Proof.
  intros Habs Hdef. unfold Dict.get.
  destruct (String.eqb_spec key key') as [<-|Hne].
  - rewrite lookup_set_same, Habs. exact (Hdef eq_refl).
  - rewrite (lookup_set_other _ _ _ _ Hne). reflexivity.
Qed.

(** The script reads its document through four [get]s only. *)
Lemma hook_output_ext (d d' : pydict) :
  Dict.get "hook_event_name" (PStr "") d = Dict.get "hook_event_name" (PStr "") d' ->
  Dict.get "tool_name" (PStr "") d = Dict.get "tool_name" (PStr "") d' ->
  Dict.get "tool_response" (PDict []) d = Dict.get "tool_response" (PDict []) d' ->
  Dict.get "prompt" (PStr "") d = Dict.get "prompt" (PStr "") d' ->
  hook_output float_repr (PDict d) = hook_output float_repr (PDict d').
Proof.
  intros H1 H2 H3 H4. unfold hook_output, execStateT, main_body. cbn.
  rewrite H1, H2, H3, H4. reflexivity.
Qed.

End Branches.

(** ** Properties of the specification *)

Section Properties.

Variable float_repr : float -> string.

Ltac event_is H :=
  rewrite (get_of_lookup _ _ _ _ H); reflexivity.

(** C1: a PostToolUse document whose response rendering has both
    "error" and "password" gives the sanitization notice as [feedback]
    (the later assignment wins), "Tool execution failed" as [context],
    and [suppressOutput] true. *)
Theorem post_tool_use_error_and_password (p : process) (d : pydict) :
  stdin_json p = Some (PDict d) ->
  Dict.lookup "hook_event_name" d = Some (PStr "PostToolUse") ->
  str_in "error" (response_rendering float_repr d) = true ->
  str_in "password" (response_rendering float_repr d) = true ->
  exists output,
    emits float_repr p output /\
    Dict.lookup "feedback" output =
      Some (PStr "Sensitive data was detected and removed from output") /\
    Dict.lookup "context" output = Some (PStr "Tool execution failed") /\
    Dict.lookup "suppressOutput" output = Some (PBool true).
Proof.
  intros Hin Hev Herr Hpw. exists out_both. split; [|repeat split].
  apply (emits_intro float_repr p (PDict d)); [exact Hin|].
  rewrite hook_output_post_tool_use by event_is Hev.
  cbv zeta. fold (response_rendering float_repr d).
  rewrite Herr, Hpw. reflexivity.
Qed.

(** C2: whatever line is printed is the JSON text of a dict whose keys
    are among the five recognised output keys. *)
Theorem output_keys_recognised (p : process) (line : string) :
  main float_repr p = inr line ->
  exists output,
    emits float_repr p output /\
    line = output_line float_repr output /\
    incl (Dict.keys output) output_keys.
Proof.
  intros H. destruct (main_inv float_repr p line H) as (output & Hem & ->).
  exists output. split; [exact Hem|]. split; [reflexivity|].
  destruct (emits_inv float_repr p output Hem) as (doc & _ & Hout).
  destruct (hook_output_shape float_repr doc output Hout);
    intros k Hk; cbn in Hk |- *; tauto.
Qed.

(** C3: PostToolUse with tool_name "Read" and tool_response
    "Error: file not found" prints exactly the two-key object with the
    templated [feedback] and the [context] "Tool execution failed". *)
Theorem read_error_output (p : process) (d : pydict) :
  stdin_json p = Some (PDict d) ->
  Dict.lookup "hook_event_name" d = Some (PStr "PostToolUse") ->
  Dict.lookup "tool_name" d = Some (PStr "Read") ->
  Dict.lookup "tool_response" d = Some (PStr "Error: file not found") ->
  emits float_repr p
    [("feedback", PStr "The Read tool encountered an error. Consider checking inputs or using an alternative approach.");
     ("context", PStr "Tool execution failed")] /\
  main float_repr p =
    inr ("{" ++ quoted "feedback" ++ ": " ++
         quoted "The Read tool encountered an error. Consider checking inputs or using an alternative approach." ++
         ", " ++ quoted "context" ++ ": " ++ quoted "Tool execution failed" ++
         "}" ++ char newline).
Proof.
  intros Hin Hev Hname Hresp.
  assert (Hem : emits float_repr p (out_error "Read")).
  { apply (emits_intro float_repr p (PDict d)); [exact Hin|].
    rewrite hook_output_post_tool_use by event_is Hev.
    rewrite (get_of_lookup _ _ _ _ Hname), (get_of_lookup _ _ _ _ Hresp).
    reflexivity. }
  split; [exact Hem|]. destruct Hem as [_ ->]. reflexivity.
Qed.

(** C4: a PostToolUse document whose response rendering has "password"
    but not "error" gives [suppressOutput] true, the sanitization notice
    as [feedback], the JSON text of the replacement object as
    [modifyOutput], and no [context] key. *)
Theorem password_only_output (p : process) (d : pydict) :
  stdin_json p = Some (PDict d) ->
  Dict.lookup "hook_event_name" d = Some (PStr "PostToolUse") ->
  str_in "error" (response_rendering float_repr d) = false ->
  str_in "password" (response_rendering float_repr d) = true ->
  exists output,
    emits float_repr p output /\
    Dict.lookup "suppressOutput" output = Some (PBool true) /\
    Dict.lookup "feedback" output =
      Some (PStr "Sensitive data was detected and removed from output") /\
    Dict.lookup "modifyOutput" output =
      Some (PStr (json_dumps float_repr sanitized_result)) /\
    json_dumps float_repr sanitized_result =
      "{" ++ quoted "result" ++ ": " ++ quoted "Output sanitized for security" ++ "}" /\
    Dict.lookup "context" output = None.
Proof.
  intros Hin Hev Herr Hpw. exists out_sanitized. split; [|repeat split].
  apply (emits_intro float_repr p (PDict d)); [exact Hin|].
  rewrite hook_output_post_tool_use by event_is Hev.
  cbv zeta. fold (response_rendering float_repr d).
  rewrite Herr, Hpw. reflexivity.
Qed.

(** C5: when [hook_event_name] is absent, or is a string other than
    "PostToolUse" and "UserPromptSubmit", the empty object is printed. *)
Theorem unrecognised_event_empty (p : process) (d : pydict) :
  stdin_json p = Some (PDict d) ->
  (Dict.lookup "hook_event_name" d = None \/
   exists name,
     Dict.lookup "hook_event_name" d = Some (PStr name) /\
     name <> "PostToolUse" /\ name <> "UserPromptSubmit") ->
  emits float_repr p [] /\ main float_repr p = inr ("{}" ++ char newline).
Proof.
  intros Hin Hev.
  assert (Hem : emits float_repr p []).
  { apply (emits_intro float_repr p (PDict d)); [exact Hin|].
    destruct Hev as [Habs | (name & Hname & Hn1 & Hn2)].
    - apply hook_output_other_event;
        rewrite (get_of_absent _ _ _ Habs); reflexivity.
    - apply hook_output_other_event;
        rewrite (get_of_lookup _ _ _ _ Hname); cbn;
        apply String.eqb_neq; assumption. }
  split; [exact Hem|]. destruct Hem as [_ ->]. reflexivity.
Qed.

(** C6: for UserPromptSubmit with a text prompt, the two-key object with
    the help [context] and [systemPrompt] is printed when the lowered
    prompt has "help" or the prompt has "?", and the empty object
    otherwise. *)
Theorem user_prompt_submit_output (p : process) (d : pydict) (prompt : string) :
  stdin_json p = Some (PDict d) ->
  Dict.lookup "hook_event_name" d = Some (PStr "UserPromptSubmit") ->
  Dict.lookup "prompt" d = Some (PStr prompt) ->
  emits float_repr p
    (if str_in "help" (lower prompt) || str_in "?" prompt
     then [("context", PStr "User is asking for help, provide detailed explanations");
           ("systemPrompt", PStr "Be extra helpful and provide examples")]
     else []).
Proof.
  intros Hin Hev Hprompt.
  apply (emits_intro float_repr p (PDict d)); [exact Hin|].
  apply hook_output_user_prompt; try event_is Hev.
  exact (get_of_lookup _ _ _ _ Hprompt).
Qed.

(** C7: absent fields are not errors.  With [tool_name] absent the
    error feedback is the template around the empty string; an absent
    [tool_response] behaves as the empty mapping and an absent [prompt]
    as the empty string, and in both cases the run prints the empty
    object. *)
Theorem absent_fields_default (p : process) (d : pydict) :
  stdin_json p = Some (PDict d) ->
  (Dict.lookup "hook_event_name" d = Some (PStr "PostToolUse") ->
   Dict.lookup "tool_name" d = None ->
   str_in "error" (response_rendering float_repr d) = true ->
   str_in "password" (response_rendering float_repr d) = false ->
   emits float_repr p
     [("feedback", PStr "The  tool encountered an error. Consider checking inputs or using an alternative approach.");
      ("context", PStr "Tool execution failed")]) /\
  (Dict.lookup "tool_response" d = None ->
   hook_output float_repr (PDict d) =
     hook_output float_repr (PDict (Dict.set "tool_response" (PDict []) d)) /\
   (Dict.lookup "hook_event_name" d = Some (PStr "PostToolUse") ->
    emits float_repr p [])) /\
  (Dict.lookup "prompt" d = None ->
   hook_output float_repr (PDict d) =
     hook_output float_repr (PDict (Dict.set "prompt" (PStr "") d)) /\
   (Dict.lookup "hook_event_name" d = Some (PStr "UserPromptSubmit") ->
    emits float_repr p [])).
Proof.
  intros Hin. split; [|split].
  - intros Hev Hname Herr Hpw.
    apply (emits_intro float_repr p (PDict d)); [exact Hin|].
    rewrite hook_output_post_tool_use by event_is Hev.
    cbv zeta. fold (response_rendering float_repr d).
    rewrite Herr, Hpw, (get_of_absent _ _ _ Hname). reflexivity.
  - intros Habs. split.
    + apply hook_output_ext; symmetry;
        apply get_set_default; try exact Habs; discriminate || reflexivity.
    + intros Hev.
      apply (emits_intro float_repr p (PDict d)); [exact Hin|].
      rewrite hook_output_post_tool_use by event_is Hev.
      rewrite (get_of_absent _ _ _ Habs). reflexivity.
  - intros Habs. split.
    + apply hook_output_ext; symmetry;
        apply get_set_default; try exact Habs; discriminate || reflexivity.
    + intros Hev.
      apply (emits_intro float_repr p (PDict d)); [exact Hin|].
      rewrite (hook_output_user_prompt float_repr d "");
        try event_is Hev; [reflexivity|].
      exact (get_of_absent _ _ _ Habs).
Qed.

(** C8: in every printed object [suppressOutput] is present exactly when
    [modifyOutput] is; when present the first is true and the second is
    the JSON text of the replacement object. *)
Theorem sanitization_keys_coupled (p : process) (output : pydict) :
  emits float_repr p output ->
  (Dict.has_key "suppressOutput" output = true <->
   Dict.has_key "modifyOutput" output = true) /\
  (forall v, Dict.lookup "suppressOutput" output = Some v -> v = PBool true) /\
  (forall v, Dict.lookup "modifyOutput" output = Some v ->
             v = PStr (json_dumps float_repr sanitized_result) /\
             v = PStr ("{" ++ quoted "result" ++ ": " ++
                       quoted "Output sanitized for security" ++ "}")).
Proof.
  intros Hem.
  destruct (emits_inv float_repr p output Hem) as (doc & _ & Hout).
  destruct (hook_output_shape float_repr doc output Hout); cbn;
    (split; [tauto|]); split; intros v Hv;
    try discriminate; injection Hv as <-; try split; reflexivity.
Qed.

(** C9: for UserPromptSubmit the run prints something exactly when the
    prompt is text (or absent); what it prints is the empty object or
    the object with [context] and [systemPrompt], never [feedback],
    [modifyOutput] or [suppressOutput]. *)
Theorem user_prompt_submit_shape (p : process) (d : pydict) :
  stdin_json p = Some (PDict d) ->
  Dict.lookup "hook_event_name" d = Some (PStr "UserPromptSubmit") ->
  ((exists output, emits float_repr p output) <->
   (exists text, Dict.get "prompt" (PStr "") d = PStr text)) /\
  (forall output, emits float_repr p output ->
     (output = [] \/
      output = [("context", PStr "User is asking for help, provide detailed explanations");
                ("systemPrompt", PStr "Be extra helpful and provide examples")]) /\
     Dict.has_key "feedback" output = false /\
     Dict.has_key "modifyOutput" output = false /\
     Dict.has_key "suppressOutput" output = false /\
     Dict.has_key "context" output = Dict.has_key "systemPrompt" output).
Proof.
  intros Hin Hev.
  assert (E1 : py_eq_str (Dict.get "hook_event_name" (PStr "") d) "PostToolUse" = false)
    by event_is Hev.
  assert (E2 : py_eq_str (Dict.get "hook_event_name" (PStr "") d) "UserPromptSubmit" = true)
    by event_is Hev.
  assert (Hshape : forall output, emits float_repr p output ->
            exists text, Dict.get "prompt" (PStr "") d = PStr text /\
              output = if str_in "help" (lower text) || str_in "?" text
                       then out_help else []).
  { intros output Hem.
    destruct (emits_inv float_repr p output Hem) as (doc & Hdoc & Hout).
    rewrite Hin in Hdoc. injection Hdoc as <-.
    destruct (Dict.get "prompt" (PStr "") d) as [| | | |text| |] eqn:E3;
      try (rewrite (hook_output_user_prompt_raises float_repr d E1 E2) in Hout
             by (rewrite E3; discriminate); discriminate).
    exists text. split; [reflexivity|].
    rewrite (hook_output_user_prompt float_repr d text E1 E2 E3) in Hout.
    injection Hout as <-. reflexivity. }
  split.
  - split.
    + intros (output & Hem). destruct (Hshape output Hem) as (text & Ht & _).
      exists text. exact Ht.
    + intros (text & Ht). eexists.
      apply (emits_intro float_repr p (PDict d)); [exact Hin|].
      exact (hook_output_user_prompt float_repr d text E1 E2 Ht).
  - intros output Hem. destruct (Hshape output Hem) as (text & _ & ->).
    destruct (_ || _); cbn; repeat split; auto.
Qed.

End Properties.

(** ** Concrete runs *)

Lemma post_tool_use_error_and_password_witness :
  str_in "error" (response_rendering plain_float_repr doc_both) = true /\
  str_in "password" (response_rendering plain_float_repr doc_both) = true /\
  exists output,
    emits plain_float_repr (process_of (PDict doc_both)) output /\
    Dict.lookup "feedback" output =
      Some (PStr "Sensitive data was detected and removed from output") /\
    Dict.lookup "context" output = Some (PStr "Tool execution failed") /\
    Dict.lookup "suppressOutput" output = Some (PBool true).
Proof.
  split; [reflexivity|]. split; [reflexivity|].
  apply (post_tool_use_error_and_password plain_float_repr
           (process_of (PDict doc_both)) doc_both); reflexivity.
Defined.

Lemma output_keys_recognised_witness :
  exists output,
    emits plain_float_repr (process_of (PDict doc_both)) output /\
    output_line plain_float_repr out_both = output_line plain_float_repr output /\
    incl (Dict.keys output) output_keys.
Proof.
  apply (output_keys_recognised plain_float_repr (process_of (PDict doc_both))
           (output_line plain_float_repr out_both)).
  reflexivity.
Defined.

Lemma read_error_output_witness :
  emits plain_float_repr (process_of (PDict doc_read_error))
    [("feedback", PStr "The Read tool encountered an error. Consider checking inputs or using an alternative approach.");
     ("context", PStr "Tool execution failed")] /\
  main plain_float_repr (process_of (PDict doc_read_error)) =
    inr ("{" ++ quoted "feedback" ++ ": " ++
         quoted "The Read tool encountered an error. Consider checking inputs or using an alternative approach." ++
         ", " ++ quoted "context" ++ ": " ++ quoted "Tool execution failed" ++
         "}" ++ char newline).
Proof.
  apply (read_error_output plain_float_repr
           (process_of (PDict doc_read_error)) doc_read_error); reflexivity.
Defined.

Lemma password_only_output_witness :
  str_in "error" (response_rendering plain_float_repr doc_password) = false /\
  str_in "password" (response_rendering plain_float_repr doc_password) = true /\
  exists output,
    emits plain_float_repr (process_of (PDict doc_password)) output /\
    Dict.lookup "suppressOutput" output = Some (PBool true) /\
    Dict.lookup "feedback" output =
      Some (PStr "Sensitive data was detected and removed from output") /\
    Dict.lookup "modifyOutput" output =
      Some (PStr (json_dumps plain_float_repr sanitized_result)) /\
    json_dumps plain_float_repr sanitized_result =
      "{" ++ quoted "result" ++ ": " ++ quoted "Output sanitized for security" ++ "}" /\
    Dict.lookup "context" output = None.
Proof.
  split; [reflexivity|]. split; [reflexivity|].
  apply (password_only_output plain_float_repr
           (process_of (PDict doc_password)) doc_password); reflexivity.
Defined.

Lemma unrecognised_event_empty_witness :
  (emits plain_float_repr (process_of (PDict [])) [] /\
   main plain_float_repr (process_of (PDict [])) = inr ("{}" ++ char newline)) /\
  (emits plain_float_repr (process_of (PDict doc_stop)) [] /\
   main plain_float_repr (process_of (PDict doc_stop)) = inr ("{}" ++ char newline)).
Proof.
  split.
  - apply (unrecognised_event_empty plain_float_repr (process_of (PDict [])) []);
      [reflexivity | left; reflexivity].
  - apply (unrecognised_event_empty plain_float_repr
             (process_of (PDict doc_stop)) doc_stop); [reflexivity|].
    right. exists "Stop". repeat split; discriminate.
Defined.

Lemma user_prompt_submit_output_witness :
  emits plain_float_repr (process_of (PDict doc_help))
    [("context", PStr "User is asking for help, provide detailed explanations");
     ("systemPrompt", PStr "Be extra helpful and provide examples")] /\
  emits plain_float_repr (process_of (PDict doc_plain)) [].
Proof.
  split.
  - apply (user_prompt_submit_output plain_float_repr
             (process_of (PDict doc_help)) doc_help "can you help me?");
      reflexivity.
  - apply (user_prompt_submit_output plain_float_repr
             (process_of (PDict doc_plain)) doc_plain "do the thing");
      reflexivity.
Defined.

Lemma absent_fields_default_witness :
  emits plain_float_repr (process_of (PDict doc_nameless))
    [("feedback", PStr "The  tool encountered an error. Consider checking inputs or using an alternative approach.");
     ("context", PStr "Tool execution failed")] /\
  emits plain_float_repr (process_of (PDict doc_post_only)) [] /\
  emits plain_float_repr (process_of (PDict doc_prompt_only)) [].
Proof.
  split; [|split].
  - exact (proj1 (absent_fields_default plain_float_repr
                    (process_of (PDict doc_nameless)) doc_nameless eq_refl)
             eq_refl eq_refl eq_refl eq_refl).
  - exact (proj2 (proj1 (proj2 (absent_fields_default plain_float_repr
                    (process_of (PDict doc_post_only)) doc_post_only eq_refl))
                    eq_refl) eq_refl).
  - exact (proj2 (proj2 (proj2 (absent_fields_default plain_float_repr
                    (process_of (PDict doc_prompt_only)) doc_prompt_only eq_refl))
                    eq_refl) eq_refl).
Defined.

Lemma sanitization_keys_coupled_witness :
  Dict.has_key "suppressOutput" out_both = true /\
  Dict.has_key "modifyOutput" out_both = true /\
  (forall v, Dict.lookup "suppressOutput" out_both = Some v -> v = PBool true) /\
  (forall v, Dict.lookup "modifyOutput" out_both = Some v ->
             v = PStr (json_dumps plain_float_repr sanitized_result) /\
             v = PStr ("{" ++ quoted "result" ++ ": " ++
                       quoted "Output sanitized for security" ++ "}")).
Proof.
  split; [reflexivity|]. split; [reflexivity|].
  apply (sanitization_keys_coupled plain_float_repr
           (process_of (PDict doc_both)) out_both).
  split; reflexivity.
Defined.

Lemma user_prompt_submit_shape_witness :
  (exists output, emits plain_float_repr (process_of (PDict doc_help)) output) /\
  (forall output, emits plain_float_repr (process_of (PDict doc_help)) output ->
     output = [] \/
     output = [("context", PStr "User is asking for help, provide detailed explanations");
               ("systemPrompt", PStr "Be extra helpful and provide examples")]).
Proof.
  destruct (user_prompt_submit_shape plain_float_repr
              (process_of (PDict doc_help)) doc_help eq_refl eq_refl)
    as [Hsome Hshape].
  split.
  - apply Hsome. exists "can you help me?". reflexivity.
  - intros output Hem. exact (proj1 (Hshape output Hem)).
Defined.

(** ** The runtime model on samples *)

Example lower_sample : lower "Error: bad PASSWORD" = "error: bad password".
Proof. reflexivity. Qed.

Example py_str_sample :
  py_str plain_float_repr
    (PDict [("stderr", PStr "Error: bad PASSWORD"); ("code", PInt (-1));
            ("ok", PBool false); ("extra", PList [PNone; PInt 20])]) =
  "{'stderr': 'Error: bad PASSWORD', 'code': -1, 'ok': False, 'extra': [None, 20]}".
Proof. reflexivity. Qed.

Example str_repr_escapes :
  str_repr (String tab (String newline (String (ascii_of_N 14) "it's"))) =
  String dquote (String backslash "t" ++ String backslash "n" ++
                 String backslash "x0e" ++ "it's" ++ char dquote).
Proof. reflexivity. Qed.

Example json_str_escapes :
  json_str (String dquote (String (ascii_of_N 233) (String tab "ok"))) =
  String dquote (String backslash (char dquote) ++ String backslash "u00e9" ++
                 String backslash "t" ++ "ok" ++ char dquote).
Proof. reflexivity. Qed.

(** Both checks fire: [feedback] keeps its first place in the dict. *)
Example both_checks_line :
  main plain_float_repr (process_of (PDict doc_both)) =
  inr ("{" ++ quoted "feedback" ++ ": " ++
       quoted "Sensitive data was detected and removed from output" ++ ", " ++
       quoted "context" ++ ": " ++ quoted "Tool execution failed" ++ ", " ++
       quoted "modifyOutput" ++ ": " ++
       quoted ("{" ++ escaped_quote ++ "result" ++ escaped_quote ++ ": " ++
               escaped_quote ++ "Output sanitized for security" ++ escaped_quote ++
               "}") ++ ", " ++
       quoted "suppressOutput" ++ ": true}" ++ char newline).
Proof. reflexivity. Qed.

(** The failure paths: text that is not JSON, a document that is not an
    object, a prompt that is not text. *)
Example malformed_input_raises :
  main plain_float_repr
    {| stdin_json := None; argv := []; environ := []; cwd_files := [];
       clock := 0; random_seed := 0 |} = inl JSONDecodeError.
Proof. reflexivity. Qed.

Example list_document_raises :
  main plain_float_repr (process_of (PList [PStr "PostToolUse"])) =
  inl (AttributeError "list" "get").
Proof. reflexivity. Qed.

Example numeric_prompt_raises :
  main plain_float_repr
    (process_of (PDict [("hook_event_name", PStr "UserPromptSubmit");
                        ("prompt", PInt 7)])) =
  inl (AttributeError "int" "lower").
Proof. reflexivity. Qed.

(** ** Text lemmas *)

Lemma str_in_middle (w a b : string) : str_in w (a ++ w ++ b) = true.
Proof. apply str_in_spec. exists a, b. reflexivity. Qed.

Lemma append_assoc (a b c : string) : (a ++ b) ++ c = a ++ b ++ c.
Proof. induction a as [|x a IH]; cbn; [reflexivity | rewrite IH; reflexivity]. Qed.

Lemma append_nil_r (a : string) : a ++ "" = a.
Proof. induction a as [|x a IH]; cbn; [reflexivity | rewrite IH; reflexivity]. Qed.

Lemma str_in_trans (a b c : string) :
  str_in a b = true -> str_in b c = true -> str_in a c = true.
Proof.
  intros Hab Hbc.
  apply str_in_spec in Hab. destruct Hab as (p1 & q1 & ->).
  apply str_in_spec in Hbc. destruct Hbc as (p2 & q2 & ->).
  apply str_in_spec. exists (p2 ++ p1), (q1 ++ q2).
  rewrite !append_assoc. reflexivity.
Qed.

Lemma str_in_refl (a : string) : str_in a a = true.
Proof.
  apply str_in_spec. exists "", "". cbn. rewrite append_nil_r. reflexivity.
Qed.

Lemma str_in_app_l (w a b : string) :
  str_in w a = true -> str_in w (a ++ b) = true.
Proof.
  intros H. apply str_in_spec in H. destruct H as (p & q & ->).
  apply str_in_spec. exists p, (q ++ b). rewrite !append_assoc. reflexivity.
Qed.

Lemma str_in_app_r (w a b : string) :
  str_in w b = true -> str_in w (a ++ b) = true.
Proof.
  intros H. apply str_in_spec in H. destruct H as (p & q & ->).
  apply str_in_spec. exists (a ++ p), q. rewrite !append_assoc. reflexivity.
Qed.

Lemma lower_app (a b : string) : lower (a ++ b) = lower a ++ lower b.
Proof. induction a as [|x a IH]; cbn; [reflexivity | rewrite IH; reflexivity]. Qed.

Lemma str_in_lower (w s : string) :
  str_in w s = true -> str_in (lower w) (lower s) = true.
Proof.
  intros H. apply str_in_spec in H. destruct H as (p & q & ->).
  rewrite !lower_app. apply str_in_middle.
Qed.

Lemma join_in (sep x : string) (parts : list string) :
  In x parts -> str_in x (join sep parts) = true.
Proof.
  induction parts as [|y rest IH]; intros Hin; [contradiction|].
  destruct Hin as [->|Hin].
  - destruct rest; cbn [join]; [apply str_in_refl|].
    apply str_in_app_l, str_in_refl.
  - destruct rest as [|z rest]; [contradiction|].
    cbn [join]. apply str_in_app_r, str_in_app_r, IH, Hin.
Qed.

Ltac each_char c :=
  destruct c as [[] [] [] [] [] [] [] []].

Lemma repr_char_plain (quote c : ascii) :
  is_ascii_lower (lower_char c) = true ->
  quote = squote \/ quote = dquote ->
  repr_char quote c = char c.
Proof.
  intros Hc [-> | ->]; revert Hc; each_char c; vm_compute;
    intros Hc; try discriminate Hc; reflexivity.
Qed.

Lemma repr_body_app (quote : ascii) (a b : string) :
  repr_body quote (a ++ b) = repr_body quote a ++ repr_body quote b.
Proof.
  induction a as [|x a IH]; cbn [repr_body append]; [reflexivity|].
  rewrite IH, append_assoc. reflexivity.
Qed.

Lemma repr_body_plain (quote : ascii) (w : string) :
  all_chars is_ascii_lower (lower w) = true ->
  quote = squote \/ quote = dquote ->
  repr_body quote w = w.
Proof.
  intros Hw Hq. induction w as [|c w IH]; [reflexivity|].
  cbn [lower all_chars] in Hw. apply andb_true_iff in Hw. destruct Hw as [Hc Hw].
  cbn [repr_body]. rewrite (repr_char_plain quote c Hc Hq), (IH Hw). reflexivity.
Qed.

Lemma repr_quote_cases (s : string) :
  repr_quote s = squote \/ repr_quote s = dquote.
Proof. unfold repr_quote. destruct (_ && _); [right | left]; reflexivity. Qed.

(** [repr] of a [str] keeps a run of letters as it is. *)
Lemma str_repr_keeps (w s : string) :
  all_chars is_ascii_lower (lower w) = true ->
  str_in w s = true ->
  str_in w (str_repr s) = true.
Proof.
  intros Hw H. apply str_in_spec in H. destruct H as (a & b & ->).
  unfold str_repr. cbv zeta.
  pose proof (repr_quote_cases (a ++ w ++ b)) as Hq.
  rewrite !repr_body_app, (repr_body_plain _ w Hw Hq).
  apply str_in_spec.
  exists (String (repr_quote (a ++ w ++ b)) (repr_body (repr_quote (a ++ w ++ b)) a)).
  eexists. cbn [append]. rewrite !append_assoc. reflexivity.
Qed.

(** ** Containers *)

Section Containers.

Variable float_repr : float -> string.

(** Induction on a value with the hypothesis for every element of a
    [list] and every value of a [dict]. *)
Fixpoint pyval_nested_ind (P : pyval -> Prop)
    (Hnone : P PNone) (Hbool : forall b, P (PBool b))
    (Hint : forall z, P (PInt z)) (Hfloat : forall f, P (PFloat f))
    (Hstr : forall s, P (PStr s))
    (Hlist : forall items, Forall P items -> P (PList items))
    (Hdict : forall items, Forall (fun kx => P (snd kx)) items -> P (PDict items))
    (v : pyval) : P v :=
  match v with
  | PNone => Hnone
  | PBool b => Hbool b
  | PInt z => Hint z
  | PFloat f => Hfloat f
  | PStr s => Hstr s
  | PList items =>
      Hlist items
        ((fix all (l : list pyval) : Forall P l :=
            match l with
            | [] => Forall_nil P
            | x :: rest =>
                Forall_cons x
                  (pyval_nested_ind P Hnone Hbool Hint Hfloat Hstr Hlist Hdict x)
                  (all rest)
            end) items)
  | PDict items =>
      Hdict items
        ((fix all (l : pydict) : Forall (fun kx => P (snd kx)) l :=
            match l with
            | [] => Forall_nil _
            | (k, x) :: rest =>
                Forall_cons (k, x)
                  (pyval_nested_ind P Hnone Hbool Hint Hfloat Hstr Hlist Hdict x)
                  (all rest)
            end) items)
  end.

(** [repr] of a [list] is its elements' [repr]s joined by a comma. *)
Lemma py_repr_list (items : list pyval) :
  py_repr float_repr (PList items) =
  "[" ++ join ", " (map (py_repr float_repr) items) ++ "]".
Proof.
  cbn [py_repr]. do 2 f_equal.
  induction items as [|x rest IH]; [reflexivity|].
  destruct rest as [|y rest]; [reflexivity|].
  change (join ", " (map (py_repr float_repr) (x :: y :: rest)))
    with (py_repr float_repr x ++ ", " ++ join ", " (map (py_repr float_repr) (y :: rest))).
  rewrite <- IH. reflexivity.
Qed.

Lemma py_repr_dict (items : pydict) :
  py_repr float_repr (PDict items) =
  "{" ++ join ", " (map (fun '(k, x) => str_repr k ++ ": " ++ py_repr float_repr x) items)
      ++ "}".
Proof.
  cbn [py_repr]. do 2 f_equal.
  induction items as [|[k x] rest IH]; [reflexivity|].
  destruct rest as [|[k' y] rest]; [reflexivity|].
  change (join ", " (map (fun '(k, x) => str_repr k ++ ": " ++ py_repr float_repr x)
                         ((k, x) :: (k', y) :: rest)))
    with ((str_repr k ++ ": " ++ py_repr float_repr x) ++ ", " ++
          join ", " (map (fun '(k, x) => str_repr k ++ ": " ++ py_repr float_repr x)
                         ((k', y) :: rest))).
  rewrite <- IH, !append_assoc. reflexivity.
Qed.

(** A run of letters inside a value shows in the value's [repr]. *)
Lemma mentions_repr (w : string) (v : pyval) :
  all_chars is_ascii_lower (lower w) = true ->
  mentions w v = true ->
  str_in w (py_repr float_repr v) = true.
Proof.
  intros Hw. induction v as [| | | |s|items IH|items IH] using pyval_nested_ind;
    cbn [mentions]; intros Hm; try discriminate.
  - exact (str_repr_keeps w s Hw Hm).
  - rewrite py_repr_list. apply str_in_app_r, str_in_app_l.
    apply existsb_exists in Hm. destruct Hm as (x & Hin & Hx).
    rewrite Forall_forall in IH.
    apply (str_in_trans _ (py_repr float_repr x)); [exact (IH x Hin Hx)|].
    apply join_in, in_map, Hin.
  - rewrite py_repr_dict. apply str_in_app_r, str_in_app_l.
    apply existsb_exists in Hm. destruct Hm as ([k x] & Hin & Hx).
    rewrite Forall_forall in IH.
    apply (str_in_trans _ (str_repr k ++ ": " ++ py_repr float_repr x)).
    + apply orb_true_iff in Hx. destruct Hx as [Hk | Hx].
      * apply str_in_app_l, str_repr_keeps; assumption.
      * apply str_in_app_r, str_in_app_r. exact (IH (k, x) Hin Hx).
    + apply join_in.
      exact (in_map (fun '(k, x) => str_repr k ++ ": " ++ py_repr float_repr x)
               items (k, x) Hin).
Qed.

(** The same for [str], and in lower case as lines 19 and 24 test it. *)
Lemma mentions_rendering (w : string) (v : pyval) :
  all_chars is_ascii_lower (lower w) = true ->
  mentions w v = true ->
  str_in (lower w) (lower (py_str float_repr v)) = true.
Proof.
  intros Hw Hm. apply str_in_lower.
  destruct v; try exact (mentions_repr w _ Hw Hm). exact Hm.
Qed.

End Containers.

(** ** Further properties of the script *)

Section Further.

Variable float_repr : float -> string.

Lemma main_of_hook_output (p : process) (doc : pyval) :
  stdin_json p = Some doc ->
  main float_repr p =
  match hook_output float_repr doc with
  | inl e => inl e
  | inr output => inr (output_line float_repr output)
  end.
Proof.
  intros Hin. unfold main, json_load. rewrite Hin. cbn.
  destruct (hook_output float_repr doc); reflexivity.
Qed.

Lemma py_eq_str_true (v : pyval) (s : string) :
  py_eq_str v s = true -> v = PStr s.
Proof.
  destruct v; cbn; try discriminate. intros H.
  apply String.eqb_eq in H. rewrite H. reflexivity.
Qed.

Lemma get_set_other (key key' : string) (v default : pyval) (d : pydict) :
  key <> key' ->
  Dict.get key' default (Dict.set key v d) = Dict.get key' default d.
Proof.
  intros Hne. unfold Dict.get. rewrite (lookup_set_other key key' v d Hne).
  reflexivity.
Qed.

(** X1: a JSON document that is not an object (a list, a string, a
    number, a boolean, null) ends the run at line 10 with the
    AttributeError for [get]; nothing is printed. *)
Theorem non_object_document_raises (p : process) (v : pyval) :
  stdin_json p = Some v ->
  (forall d, v <> PDict d) ->
  main float_repr p = inl (AttributeError (type_name v) "get").
Proof.
  intros Hin Hv. rewrite (main_of_hook_output p v Hin).
  rewrite (hook_output_not_dict float_repr v Hv). reflexivity.
Qed.

(** X2: for UserPromptSubmit a [prompt] that is present but not a string
    ends the run at line 33 with the AttributeError for [lower]; nothing
    is printed. *)
Theorem non_text_prompt_raises (p : process) (d : pydict) (prompt : pyval) :
  stdin_json p = Some (PDict d) ->
  Dict.lookup "hook_event_name" d = Some (PStr "UserPromptSubmit") ->
  Dict.lookup "prompt" d = Some prompt ->
  (forall text, prompt <> PStr text) ->
  main float_repr p = inl (AttributeError (type_name prompt) "lower").
Proof.
  intros Hin Hev Hp Hnot. rewrite (main_of_hook_output p _ Hin).
  rewrite hook_output_user_prompt_raises;
    try (rewrite (get_of_lookup _ _ _ _ Hev); reflexivity);
    rewrite (get_of_lookup _ _ _ _ Hp); [reflexivity | exact Hnot].
Qed.

(** X3: the PostToolUse branch never raises, whatever JSON types
    [tool_name] and [tool_response] have: the output is decided by the
    two substring tests alone, and the error feedback carries
    [str(tool_name)]. *)
Theorem post_tool_use_table (p : process) (d : pydict) :
  stdin_json p = Some (PDict d) ->
  Dict.lookup "hook_event_name" d = Some (PStr "PostToolUse") ->
  emits float_repr p
    (match str_in "error" (response_rendering float_repr d),
           str_in "password" (response_rendering float_repr d) with
     | true, true => out_both
     | true, false =>
         out_error (py_str float_repr (Dict.get "tool_name" (PStr "") d))
     | false, true => out_sanitized
     | false, false => []
     end).
Proof.
  intros Hin Hev. apply (emits_intro float_repr p (PDict d) _ Hin).
  rewrite hook_output_post_tool_use
    by (rewrite (get_of_lookup _ _ _ _ Hev); reflexivity).
  reflexivity.
Qed.

(** X4: a line is printed exactly when the document is an object and,
    if its event is UserPromptSubmit, its prompt is absent or a string. *)
Theorem main_prints_iff (p : process) :
  (exists line, main float_repr p = inr line) <->
  (exists d,
     stdin_json p = Some (PDict d) /\
     (Dict.get "hook_event_name" (PStr "") d = PStr "UserPromptSubmit" ->
      exists text, Dict.get "prompt" (PStr "") d = PStr text)).
Proof.
  split.
  - intros (line & H). unfold main, json_load in H.
    destruct (stdin_json p) as [doc|] eqn:Hin; cbn in H; [|discriminate].
    destruct (hook_output float_repr doc) as [e|output] eqn:Hout; [discriminate|].
    destruct doc as [| | | | | |d];
      try (rewrite hook_output_not_dict in Hout by discriminate; discriminate).
    exists d. split; [reflexivity|]. intros Hev.
    destruct (Dict.get "prompt" (PStr "") d) as [| | | |text| |] eqn:E;
      try (rewrite hook_output_user_prompt_raises in Hout;
           try (rewrite Hev; reflexivity);
           [discriminate | rewrite E; discriminate]).
    exists text. reflexivity.
  - intros (d & Hin & Hprompt). rewrite (main_of_hook_output p _ Hin).
    destruct (py_eq_str (Dict.get "hook_event_name" (PStr "") d) "PostToolUse") eqn:E1.
    + rewrite (hook_output_post_tool_use float_repr d E1). eexists. reflexivity.
    + destruct (py_eq_str (Dict.get "hook_event_name" (PStr "") d) "UserPromptSubmit") eqn:E2.
      * destruct (Hprompt (py_eq_str_true _ _ E2)) as (text & Ht).
        rewrite (hook_output_user_prompt float_repr d text E1 E2 Ht).
        eexists. reflexivity.
      * rewrite (hook_output_other_event float_repr d E1 E2). eexists. reflexivity.
Qed.

(** X5: the script reads four keys only: writing any other key into the
    document, new or old, with any value, changes nothing of the run. *)
Theorem unread_keys_ignored (p p' : process) (d : pydict) (key : string) (v : pyval) :
  stdin_json p = Some (PDict d) ->
  stdin_json p' = Some (PDict (Dict.set key v d)) ->
  ~ In key input_keys ->
  main float_repr p' = main float_repr p.
Proof.
  intros Hin Hin' Hkey.
  rewrite (main_of_hook_output p _ Hin), (main_of_hook_output p' _ Hin').
  rewrite (hook_output_ext float_repr (Dict.set key v d) d);
    try reflexivity; apply get_set_other; intros ->; apply Hkey; cbn; tauto.
Qed.

(** X6: each branch reads its own fields only.  Under PostToolUse the
    [prompt] is never touched, so even a prompt that is not text cannot
    make the run fail; under UserPromptSubmit [tool_name] and
    [tool_response] are never touched. *)
Theorem branches_read_own_fields (p p' : process) (d : pydict) (key : string) (v : pyval) :
  stdin_json p = Some (PDict d) ->
  stdin_json p' = Some (PDict (Dict.set key v d)) ->
  (Dict.lookup "hook_event_name" d = Some (PStr "PostToolUse") /\ key = "prompt") \/
  (Dict.lookup "hook_event_name" d = Some (PStr "UserPromptSubmit") /\
   (key = "tool_name" \/ key = "tool_response")) ->
  main float_repr p' = main float_repr p.
Proof.
  intros Hin Hin' Hcase.
  rewrite (main_of_hook_output p _ Hin), (main_of_hook_output p' _ Hin').
  destruct Hcase as [[Hev ->] | [Hev Hkey]].
  - rewrite !hook_output_post_tool_use;
      rewrite ?get_set_other by discriminate;
      try (rewrite (get_of_lookup _ _ _ _ Hev); reflexivity).
    reflexivity.
  - assert (Hp : Dict.get "prompt" (PStr "") (Dict.set key v d) =
                 Dict.get "prompt" (PStr "") d)
      by (destruct Hkey as [-> | ->]; apply get_set_other; discriminate).
    assert (He : Dict.get "hook_event_name" (PStr "") (Dict.set key v d) =
                 PStr "UserPromptSubmit")
      by (destruct Hkey as [-> | ->]; rewrite get_set_other by discriminate;
          exact (get_of_lookup _ _ _ _ Hev)).
    pose proof (get_of_lookup _ (PStr "") _ _ Hev) as He0.
    destruct (Dict.get "prompt" (PStr "") d) as [| | | |text| |] eqn:E.
    all: try (rewrite !hook_output_user_prompt_raises;
              rewrite ?He, ?He0, ?Hp, ?E; try reflexivity; discriminate).
    rewrite (hook_output_user_prompt float_repr d text)
      by (rewrite ?He0; first [reflexivity | exact E]).
    rewrite (hook_output_user_prompt float_repr (Dict.set key v d) text)
      by (rewrite ?He; first [reflexivity | exact Hp]).
    reflexivity.
Qed.

(** X7: sanitization looks through the whole response.  A run of
    letters that lower-cases to "password", in a string, a list element,
    a dict key or a dict value at any depth of [tool_response], makes
    the run suppress the output and replace it. *)
Theorem nested_password_sanitized (p : process) (d : pydict) (r : pyval) (w : string) :
  stdin_json p = Some (PDict d) ->
  Dict.lookup "hook_event_name" d = Some (PStr "PostToolUse") ->
  Dict.lookup "tool_response" d = Some r ->
  lower w = "password" ->
  mentions w r = true ->
  exists output,
    emits float_repr p output /\
    Dict.lookup "suppressOutput" output = Some (PBool true) /\
    Dict.lookup "modifyOutput" output = Some (PStr sanitized_json) /\
    Dict.lookup "feedback" output = Some (PStr sanitize_message).
Proof.
  intros Hin Hev Hr Hw Hm.
  pose proof (post_tool_use_table p d Hin Hev) as Hem.
  assert (Hpw : str_in "password" (response_rendering float_repr d) = true).
  { unfold response_rendering. rewrite (get_of_lookup _ _ _ _ Hr), <- Hw.
    apply mentions_rendering; [rewrite Hw; reflexivity | exact Hm]. }
  rewrite Hpw in Hem. eexists. split; [exact Hem|].
  destruct (str_in "error" _); repeat split; reflexivity.
Qed.

(** X8: the error check looks through the whole response too, keys
    included: a response with a field named "error" (in any case) is
    reported as failed whatever the field holds. *)
Theorem nested_error_reported (p : process) (d : pydict) (r : pyval) (w : string) :
  stdin_json p = Some (PDict d) ->
  Dict.lookup "hook_event_name" d = Some (PStr "PostToolUse") ->
  Dict.lookup "tool_response" d = Some r ->
  lower w = "error" ->
  mentions w r = true ->
  exists output,
    emits float_repr p output /\
    Dict.lookup "context" output = Some (PStr "Tool execution failed") /\
    Dict.has_key "feedback" output = true.
Proof.
  intros Hin Hev Hr Hw Hm.
  pose proof (post_tool_use_table p d Hin Hev) as Hem.
  assert (Herr : str_in "error" (response_rendering float_repr d) = true).
  { unfold response_rendering. rewrite (get_of_lookup _ _ _ _ Hr), <- Hw.
    apply mentions_rendering; [rewrite Hw; reflexivity | exact Hm]. }
  rewrite Herr in Hem. eexists. split; [exact Hem|].
  destruct (str_in "password" _); repeat split; reflexivity.
Qed.

(** X9: "help" is found in a prompt in any mix of cases. *)
Theorem help_in_any_case (p : process) (d : pydict) (prompt w : string) :
  stdin_json p = Some (PDict d) ->
  Dict.lookup "hook_event_name" d = Some (PStr "UserPromptSubmit") ->
  Dict.lookup "prompt" d = Some (PStr prompt) ->
  lower w = "help" ->
  str_in w prompt = true ->
  emits float_repr p out_help.
Proof.
  intros Hin Hev Hp Hw Hm.
  apply (emits_intro float_repr p (PDict d) _ Hin).
  rewrite (hook_output_user_prompt float_repr d prompt);
    try (rewrite (get_of_lookup _ _ _ _ Hev); reflexivity);
    [|exact (get_of_lookup _ _ _ _ Hp)].
  rewrite <- Hw, (str_in_lower w prompt Hm). reflexivity.
Qed.

(** X11: a [hook_event_name] that is not a string (a number, a list,
    null) is no error: it matches neither event and the empty object is
    printed, whatever the other fields hold. *)
Theorem non_text_event_ignored (p : process) (d : pydict) (event : pyval) :
  stdin_json p = Some (PDict d) ->
  Dict.lookup "hook_event_name" d = Some event ->
  (forall name, event <> PStr name) ->
  emits float_repr p [].
Proof.
  intros Hin Hev Hnot. apply (emits_intro float_repr p (PDict d) _ Hin).
  apply hook_output_other_event; rewrite (get_of_lookup _ _ _ _ Hev);
    destruct event; try reflexivity; exfalso; exact (Hnot _ eq_refl).
Qed.

(** X12: the keys of the printed object tell the event: [feedback],
    [modifyOutput] and [suppressOutput] appear only for PostToolUse,
    [systemPrompt] only for UserPromptSubmit. *)
Theorem output_keys_tell_event (p : process) (d : pydict) (output : pydict) :
  stdin_json p = Some (PDict d) ->
  emits float_repr p output ->
  (Dict.has_key "feedback" output || Dict.has_key "modifyOutput" output
     || Dict.has_key "suppressOutput" output = true ->
   Dict.lookup "hook_event_name" d = Some (PStr "PostToolUse")) /\
  (Dict.has_key "systemPrompt" output = true ->
   Dict.lookup "hook_event_name" d = Some (PStr "UserPromptSubmit")).
Proof.
  intros Hin Hem.
  destruct (emits_inv float_repr p output Hem) as (doc & Hdoc & Hout).
  rewrite Hin in Hdoc. injection Hdoc as <-.
  assert (Hget : forall name,
            py_eq_str (Dict.get "hook_event_name" (PStr "") d) name = true ->
            name <> "" ->
            Dict.lookup "hook_event_name" d = Some (PStr name)).
  { intros name E Hne. apply py_eq_str_true in E. unfold Dict.get in E.
    destruct (Dict.lookup "hook_event_name" d) as [v|].
    - rewrite E. reflexivity.
    - injection E as E. symmetry in E. contradiction. }
  destruct (py_eq_str (Dict.get "hook_event_name" (PStr "") d) "PostToolUse") eqn:E1.
  - split; [intros _; apply (Hget _ E1); discriminate|].
    rewrite (hook_output_post_tool_use float_repr d E1) in Hout. cbv zeta in Hout.
    destruct (str_in "error" _), (str_in "password" _);
      injection Hout as <-; discriminate.
  - destruct (py_eq_str (Dict.get "hook_event_name" (PStr "") d) "UserPromptSubmit") eqn:E2.
    + split; [|intros _; apply (Hget _ E2); discriminate].
      destruct (Dict.get "prompt" (PStr "") d) as [| | | |text| |] eqn:E3;
        try (rewrite (hook_output_user_prompt_raises float_repr d E1 E2) in Hout
               by (rewrite E3; discriminate); discriminate).
      rewrite (hook_output_user_prompt float_repr d text E1 E2 E3) in Hout.
      destruct (_ || _); injection Hout as <-; discriminate.
    + rewrite (hook_output_other_event float_repr d E1 E2) in Hout.
      injection Hout as <-. split; discriminate.
Qed.

End Further.

(** ** Concrete runs of the further properties *)

Lemma non_object_document_raises_witness :
  main plain_float_repr (process_of (PList [PStr "PostToolUse"])) =
  inl (AttributeError "list" "get").
Proof.
  apply (non_object_document_raises plain_float_repr
           (process_of (PList [PStr "PostToolUse"])) (PList [PStr "PostToolUse"]));
    [reflexivity | discriminate].
Defined.

Lemma non_text_prompt_raises_witness :
  main plain_float_repr (process_of (PDict doc_numeric_prompt)) =
  inl (AttributeError "int" "lower").
Proof.
  apply (non_text_prompt_raises plain_float_repr
           (process_of (PDict doc_numeric_prompt)) doc_numeric_prompt (PInt 7));
    try reflexivity. discriminate.
Defined.

Lemma post_tool_use_table_witness :
  emits plain_float_repr (process_of (PDict doc_error_key))
    (out_error "['Read', 2]").
Proof.
  apply (post_tool_use_table plain_float_repr
           (process_of (PDict doc_error_key)) doc_error_key); reflexivity.
Defined.

Lemma main_prints_iff_witness :
  (exists line, main plain_float_repr (process_of (PDict doc_help)) = inr line) /\
  ~ (exists line, main plain_float_repr (process_of (PDict doc_numeric_prompt)) = inr line).
Proof.
  split.
  - apply (proj2 (main_prints_iff plain_float_repr (process_of (PDict doc_help)))).
    exists doc_help. split; [reflexivity|]. intros _.
    exists "can you help me?". reflexivity.
  - intros H.
    apply (proj1 (main_prints_iff plain_float_repr
                    (process_of (PDict doc_numeric_prompt)))) in H.
    destruct H as (d & Hd & Hp). injection Hd as <-.
    destruct (Hp eq_refl) as (text & Ht). discriminate Ht.
Defined.

Lemma unread_keys_ignored_witness :
  main plain_float_repr
    (process_of (PDict (Dict.set "session_id" (PStr "password error") doc_read_error))) =
  main plain_float_repr (process_of (PDict doc_read_error)).
Proof.
  apply (unread_keys_ignored plain_float_repr
           (process_of (PDict doc_read_error))
           (process_of (PDict (Dict.set "session_id" (PStr "password error") doc_read_error)))
           doc_read_error "session_id" (PStr "password error"));
    try reflexivity.
  cbn. intros [H|[H|[H|[H|[]]]]]; discriminate H.
Defined.

Lemma branches_read_own_fields_witness :
  main plain_float_repr
    (process_of (PDict (Dict.set "prompt" (PInt 7) doc_both))) =
  main plain_float_repr (process_of (PDict doc_both)).
Proof.
  apply (branches_read_own_fields plain_float_repr
           (process_of (PDict doc_both))
           (process_of (PDict (Dict.set "prompt" (PInt 7) doc_both)))
           doc_both "prompt" (PInt 7)); try reflexivity.
  left. split; reflexivity.
Defined.

Lemma nested_password_sanitized_witness :
  mentions "Password" (Dict.get "tool_response" PNone doc_nested_password) = true /\
  exists output,
    emits plain_float_repr (process_of (PDict doc_nested_password)) output /\
    Dict.lookup "suppressOutput" output = Some (PBool true) /\
    Dict.lookup "modifyOutput" output = Some (PStr sanitized_json) /\
    Dict.lookup "feedback" output = Some (PStr sanitize_message).
Proof.
  split; [reflexivity|].
  apply (nested_password_sanitized plain_float_repr
           (process_of (PDict doc_nested_password)) doc_nested_password
           (Dict.get "tool_response" PNone doc_nested_password) "Password");
    reflexivity.
Defined.

Lemma nested_error_reported_witness :
  mentions "ERROR" (Dict.get "tool_response" PNone doc_error_key) = true /\
  exists output,
    emits plain_float_repr (process_of (PDict doc_error_key)) output /\
    Dict.lookup "context" output = Some (PStr "Tool execution failed") /\
    Dict.has_key "feedback" output = true.
Proof.
  split; [reflexivity|].
  apply (nested_error_reported plain_float_repr
           (process_of (PDict doc_error_key)) doc_error_key
           (Dict.get "tool_response" PNone doc_error_key) "ERROR");
    reflexivity.
Defined.

Lemma help_in_any_case_witness :
  emits plain_float_repr (process_of (PDict doc_shouted_help)) out_help.
Proof.
  apply (help_in_any_case plain_float_repr
           (process_of (PDict doc_shouted_help)) doc_shouted_help "HELP me" "HELP");
    reflexivity.
Defined.

Lemma non_text_event_ignored_witness :
  emits plain_float_repr (process_of (PDict doc_numeric_event)) [].
Proof.
  apply (non_text_event_ignored plain_float_repr
           (process_of (PDict doc_numeric_event)) doc_numeric_event (PInt 1));
    try reflexivity. discriminate.
Defined.

Lemma output_keys_tell_event_witness :
  Dict.lookup "hook_event_name" doc_both = Some (PStr "PostToolUse") /\
  Dict.lookup "hook_event_name" doc_help = Some (PStr "UserPromptSubmit").
Proof.
  split.
  - apply (proj1 (output_keys_tell_event plain_float_repr
                    (process_of (PDict doc_both)) doc_both out_both
                    eq_refl (conj eq_refl eq_refl))).
    reflexivity.
  - apply (proj2 (output_keys_tell_event plain_float_repr
                    (process_of (PDict doc_help)) doc_help out_help
                    eq_refl (conj eq_refl eq_refl))).
    reflexivity.
Defined.
